(** * simple-web-starter: the HTML fragment and document generator of
      [src/index.ts], embedded in Rocq.

    JavaScript strings are sequences of UTF-16 code units, so a string is a
    list of code units here; dynamically typed arguments are values of the
    type [value]; a function that can throw returns a [result]. *)

From Stdlib Require Import List NArith ZArith Bool Lia.
From Stdlib Require Import Ascii String DecimalString.
Import ListNotations.

Set Warnings "-register-all".

Local Open Scope N_scope.
Local Open Scope list_scope.

(** ** Strings *)

Module JsString.

(** A UTF-16 code unit. *)
Definition char16 := N.

Definition jsstring := list char16.

(** A source literal made of ASCII characters only. *)
Fixpoint lit (s : string) : jsstring :=
  match s with
  | EmptyString => []
  | String a rest => N_of_ascii a :: lit rest
  end.

(** The characters the source writes with an escape or that a Rocq literal
    cannot hold. *)
Definition dquote : char16 := 34.
Definition newline : char16 := 10.

(** Strict equality of two strings. *)
Fixpoint eqb (a b : jsstring) : bool :=
  match a, b with
  | [], [] => true
  | x :: a', y :: b' => (x =? y) && eqb a' b'
  | _, _ => false
  end.

Definition is_empty (s : jsstring) : bool :=
  match s with
  | [] => true
  | _ :: _ => false
  end.

(** [String.prototype.startsWith(searchString)] at position 0. *)
Fixpoint startsWith (searchString s : jsstring) : bool :=
  match searchString, s with
  | [], _ => true
  | _ :: _, [] => false
  | p :: ps, c :: cs => (c =? p) && startsWith ps cs
  end.

(** ECMAScript WhiteSpace and LineTerminator code points, the set that
    [String.prototype.trim] strips. *)
Definition is_white_space (c : char16) : bool :=
  (c =? 9) || (c =? 10) || (c =? 11) || (c =? 12) || (c =? 13) ||
  (c =? 32) || (c =? 160) || (c =? 5760) ||
  ((8192 <=? c) && (c <=? 8202)) ||
  (c =? 8232) || (c =? 8233) || (c =? 8239) || (c =? 8287) ||
  (c =? 12288) || (c =? 65279).

Fixpoint trimStart (s : jsstring) : jsstring :=
  match s with
  | [] => []
  | c :: rest => if is_white_space c then trimStart rest else s
  end.

Definition trimEnd (s : jsstring) : jsstring :=
  rev (trimStart (rev s)).

(** [String.prototype.trim]. *)
Definition trim (s : jsstring) : jsstring :=
  trimEnd (trimStart s).

(** [Array.prototype.join(separator)] on an array of strings. *)
Fixpoint join (separator : jsstring) (parts : list jsstring) : jsstring :=
  match parts with
  | [] => []
  | [p] => p
  | p :: rest => p ++ separator ++ join separator rest
  end.

(** Number-to-string conversion, as a template literal performs it, of an
    integer in the safe range (magnitude below 2^53): there every integer is
    a number and is printed with all its decimal digits, after a minus sign
    when negative.  Past that range an integer need not be a number and the
    runtime rounds or prints an exponent, which this function does not
    follow; the properties that depend on the digits are stated inside the
    range. *)
Definition numberToString (n : Z) : jsstring :=
  lit (NilZero.string_of_int (Z.to_int n)).

End JsString.
Import JsString.

(** ** Dynamically typed values and exceptions *)

(** Plain data, as a caller builds it from literals or gets it from a JSON
    parser, and [undefined]: primitives, arrays without holes and plain
    objects whose properties hold such data, one value per key (a lookup
    takes the first entry).  Numbers are the integer-valued ones.  Objects
    that carry methods of their own are outside this type: a wrapper object
    made with [new String], a typed array, an object with a callable [map]
    or [replace], a getter.  What is proved for every [value] is proved for
    plain data only. *)
Inductive value : Type :=
| VUndefined
| VNull
| VBool (b : bool)
| VNumber (n : Z)
| VString (s : jsstring)
| VArray (elements : list value)
| VObject (properties : list (jsstring * value)).

(** What a [throw] carries: the [Error] objects the source constructs, and
    the [TypeError] the runtime raises on a bad property access or call. *)
Inductive type_error : Type :=
| NotAFunction (callee : string)
| CannotReadProperty (of_null : bool) (name : string).

Inductive exn : Type :=
| Error (message : jsstring)
| TypeError (cause : type_error).

(** The message of a thrown object; the runtime's wording is the one of V8. *)
Definition message_of (e : exn) : jsstring :=
  match e with
  | Error m => m
  | TypeError (NotAFunction callee) =>
      lit callee ++ lit " is not a function"
  | TypeError (CannotReadProperty of_null name) =>
      lit "Cannot read properties of " ++
      lit (if of_null then "null" else "undefined") ++
      lit " (reading '" ++ lit name ++ lit "')"
  end.

Definition result (A : Type) : Type := (exn + A)%type.

Definition ret {A : Type} (a : A) : result A := inr a.
Definition throw {A : Type} (e : exn) : result A := inl e.

Definition bind {A B : Type} (m : result A) (k : A -> result B) : result B :=
  match m with
  | inl e => inl e
  | inr a => k a
  end.

Notation "x <- m ;; k" := (bind m (fun x => k))
  (at level 61, m at next level, right associativity).

(** [Array.prototype.map] with a callback that can throw: the first
    exception ends the traversal. *)
Fixpoint mapM {A B : Type} (f : A -> result B) (l : list A) : result (list B) :=
  match l with
  | [] => ret []
  | a :: rest =>
      b <- f a ;;
      bs <- mapM f rest ;;
      ret (b :: bs)
  end.

(** ToBoolean. *)
Definition truthy (v : value) : bool :=
  match v with
  | VUndefined | VNull => false
  | VBool b => b
  | VNumber n => negb (Z.eqb n 0)
  | VString s => negb (is_empty s)
  | VArray _ | VObject _ => true
  end.

Inductive type_tag : Type :=
| TUndefined | TObject | TBoolean | TNumber | TString.

(** The [typeof] operator. *)
Definition typeof (v : value) : type_tag :=
  match v with
  | VUndefined => TUndefined
  | VNull => TObject
  | VBool _ => TBoolean
  | VNumber _ => TNumber
  | VString _ => TString
  | VArray _ | VObject _ => TObject
  end.

Definition is_string_tag (t : type_tag) : bool :=
  match t with
  | TString => true
  | _ => false
  end.

Fixpoint lookup (name : jsstring) (properties : list (jsstring * value)) : option value :=
  match properties with
  | [] => None
  | (k, v) :: rest => if JsString.eqb k name then Some v else lookup name rest
  end.

(** Property read [base.name] for the data properties the source reads
    ([title], [bodyContent], [styles], [scripts]): own properties of an
    object, [undefined] on any other non-nullish value, a [TypeError] on
    [undefined] and [null]. *)
Definition get (base : value) (name : string) : result value :=
  match base with
  | VUndefined => throw (TypeError (CannotReadProperty false name))
  | VNull => throw (TypeError (CannotReadProperty true name))
  | VObject properties =>
      match lookup (lit name) properties with
      | Some v => ret v
      | None => ret VUndefined
      end
  | _ => ret VUndefined
  end.

(** Method call [base.name(...)] of a method that, among plain data, only
    strings have ([replace], [trim]); [callee] is the source text of the
    callee. *)
Definition string_method {A : Type} (base : value) (name callee : string)
    (method : jsstring -> A) : result A :=
  match base with
  | VString s => ret (method s)
  | VUndefined => throw (TypeError (CannotReadProperty false name))
  | VNull => throw (TypeError (CannotReadProperty true name))
  | _ => throw (TypeError (NotAFunction callee))
  end.

(** Method call [base.map(callback)]: among plain data only arrays have
    [map]. *)
Definition array_map {B : Type} (base : value) (callee : string)
    (callback : value -> result B) : result (list B) :=
  match base with
  | VArray elements => mapM callback elements
  | VUndefined => throw (TypeError (CannotReadProperty false "map"))
  | VNull => throw (TypeError (CannotReadProperty true "map"))
  | _ => throw (TypeError (NotAFunction callee))
  end.

(** ** sanitizeHTML *)

(** The character class of the regular expression: ampersand, less-than,
    greater-than and the double quote. *)
Definition special_chars : list char16 := [38; 60; 62; 34].

Definition matches_class (c : char16) : bool :=
  existsb (N.eqb c) special_chars.

(** The object literal the replacer indexes with the match. *)
Definition entity_table : list (char16 * jsstring) :=
  [ (38, lit "&amp;");
    (60, lit "&lt;");
    (62, lit "&gt;");
    (34, lit "&quot;") ].

Fixpoint entity_lookup (c : char16) (table : list (char16 * jsstring)) : option jsstring :=
  match table with
  | [] => None
  | (k, e) :: rest => if c =? k then Some e else entity_lookup c rest
  end.

(** The replacer [(match) => ({...}[match])]; [replace] converts what the
    replacer returns to a string, [undefined] included. *)
Definition replacer (c : char16) : jsstring :=
  match entity_lookup c entity_table with
  | Some e => e
  | None => lit "undefined"
  end.

(** [input.replace(regexp, replacer)] with the global flag: one pass over the
    input; a match of the class is one code unit, and what is substituted is
    not scanned again. *)
Fixpoint replace_all (input : jsstring) : jsstring :=
  match input with
  | [] => []
  | c :: rest =>
      if matches_class c then replacer c ++ replace_all rest
      else c :: replace_all rest
  end.

Definition sanitizeHTML (input : value) : result jsstring :=
  string_method input "replace" "input.replace" replace_all.

(** ** generateWebsite *)

Definition title_required : jsstring :=
  lit "Title is required and must be a non-empty string".

Definition body_required : jsstring :=
  lit "Body content is required and must be a non-empty string".

(** The condition of the first [if]:
    [!options || typeof options.title !== 'string' || options.title.trim() === ''],
    evaluated left to right with short circuit. *)
Definition title_rejected (options : value) : result bool :=
  if negb (truthy options) then ret true else
  t <- get options "title" ;;
  if negb (is_string_tag (typeof t)) then ret true else
  t' <- get options "title" ;;
  trimmed <- string_method t' "trim" "options.title.trim" trim ;;
  ret (is_empty trimmed).

(** The condition of the second [if]:
    [typeof options.bodyContent !== 'string' || options.bodyContent.trim() === '']. *)
Definition body_rejected (options : value) : result bool :=
  b <- get options "bodyContent" ;;
  if negb (is_string_tag (typeof b)) then ret true else
  b' <- get options "bodyContent" ;;
  trimmed <- string_method b' "trim" "options.bodyContent.trim" trim ;;
  ret (is_empty trimmed).

(** [options.name ? sanitizeHTML(options.name) : ''] *)
Definition sanitized_optional (options : value) (name : string) : result jsstring :=
  v <- get options name ;;
  if truthy v then
    v' <- get options name ;;
    sanitizeHTML v'
  else ret [].

(** [content ? `<tag>${content}</tag>` : ''] inside the template. *)
Definition optional_block (tag : string) (content : jsstring) : jsstring :=
  if truthy (VString content)
  then lit "<" ++ lit tag ++ lit ">" ++ content ++ lit "</" ++ lit tag ++ lit ">"
  else [].

Definition generateWebsite (options : value) : result jsstring :=
  (* Validation *)
  no_title <- title_rejected options ;;
  if no_title then throw (Error title_required) else
  no_body <- body_rejected options ;;
  if no_body then throw (Error body_required) else
  (* Sanitize inputs *)
  title <- get options "title" ;;
  sanitizedTitle <- sanitizeHTML title ;;
  bodyContent <- get options "bodyContent" ;;
  sanitizedBody <- sanitizeHTML bodyContent ;;
  sanitizedStyles <- sanitized_optional options "styles" ;;
  sanitizedScripts <- sanitized_optional options "scripts" ;;
  (* Generate HTML *)
  ret (lit "<!DOCTYPE html>" ++ [newline] ++
       lit "<html lang=" ++ [dquote] ++ lit "en" ++ [dquote] ++ lit ">" ++ [newline] ++
       lit "<head>" ++ [newline] ++
       lit "  <meta charset=" ++ [dquote] ++ lit "UTF-8" ++ [dquote] ++ lit ">" ++ [newline] ++
       lit "  <meta name=" ++ [dquote] ++ lit "viewport" ++ [dquote] ++
         lit " content=" ++ [dquote] ++
         lit "width=device-width, initial-scale=1.0" ++ [dquote] ++ lit ">" ++ [newline] ++
       lit "  <title>" ++ sanitizedTitle ++ lit "</title>" ++ [newline] ++
       lit "  " ++ optional_block "style" sanitizedStyles ++ [newline] ++
       lit "</head>" ++ [newline] ++
       lit "<body>" ++ [newline] ++
       lit "  " ++ sanitizedBody ++ [newline] ++
       lit "  " ++ optional_block "script" sanitizedScripts ++ [newline] ++
       lit "</body>" ++ [newline] ++
       lit "</html>").

(** ** The fragment builders *)

(** [level] has the declared type [1 | 2 | 3 | 4 | 5 | 6], which is erased at
    run time: the function receives whatever number the caller passes. *)
Definition createHeading (text : jsstring) (level : Z) : result jsstring :=
  sanitized <- sanitizeHTML (VString text) ;;
  ret (lit "<h" ++ numberToString level ++ lit ">" ++ sanitized ++
       lit "</h" ++ numberToString level ++ lit ">").

Definition createParagraph (text : jsstring) : result jsstring :=
  sanitized <- sanitizeHTML (VString text) ;;
  ret (lit "<p>" ++ sanitized ++ lit "</p>").

(** The callback of [items.map]: [item => `<li>${sanitizeHTML(item)}</li>`]. *)
Definition list_item (item : value) : result jsstring :=
  sanitized <- sanitizeHTML item ;;
  ret (lit "<li>" ++ sanitized ++ lit "</li>").

(** [items] has the declared type [string[]], erased at run time. *)
Definition createUnorderedList (items : value) : result jsstring :=
  mapped <- array_map items "items.map" list_item ;;
  let listItems := join [newline] mapped in
  ret (lit "<ul>" ++ [newline] ++ listItems ++ [newline] ++ lit "</ul>").

Definition xss_detected : jsstring :=
  lit "Invalid href: Potential XSS attack detected".

Definition createLink (text href : jsstring) : result jsstring :=
  if startsWith (lit "javascript:") href || startsWith (lit "data:") href
  then throw (Error xss_detected)
  else
    sanitizedHref <- sanitizeHTML (VString href) ;;
    sanitizedText <- sanitizeHTML (VString text) ;;
    ret (lit "<a href=" ++ [dquote] ++ sanitizedHref ++ [dquote] ++ lit ">" ++
         sanitizedText ++ lit "</a>").

(** ** The typed options record and its run-time object *)

Record WebsiteOptions : Type := {
  title : jsstring;
  bodyContent : jsstring;
  styles : option jsstring;
  scripts : option jsstring
}.

Definition optional_property (name : string) (v : option jsstring)
    : list (jsstring * value) :=
  match v with
  | Some s => [(lit name, VString s)]
  | None => []
  end.

(** The object literal a typed caller passes; an omitted optional field is an
    absent property. *)
Definition options_object (o : WebsiteOptions) : value :=
  VObject ([(lit "title", VString (title o));
            (lit "bodyContent", VString (bodyContent o))] ++
           optional_property "styles" (styles o) ++
           optional_property "scripts" (scripts o)).

(** * Definitions of the specification

    The notions the properties are stated with, in the words of the
    specification; none of them is used by the functions above. *)

(** The escaper in the words of the specification: a fixed mapping from a
    character to its replacement, applied to each character of the input in
    order, the replacements concatenated. *)
Definition escape_char (c : char16) : jsstring :=
  if c =? 38 then lit "&amp;"
  else if c =? 60 then lit "&lt;"
  else if c =? 62 then lit "&gt;"
  else if c =? 34 then lit "&quot;"
  else [c].

Definition escape (s : jsstring) : jsstring := flat_map escape_char s.

(** Arithmetic on lengths, with the string types unfolded to lists. *)
Ltac length_lia :=
  unfold jsstring, char16 in *; cbn [List.length] in *; lia.

(** The input holds one of the four characters. *)
Definition contains_special (s : jsstring) : Prop :=
  exists c, In c s /\ In c special_chars.

(** The message the specification and the test suite expect for a list
    argument that is not an array; the source holds no such string. *)
Definition items_required : jsstring :=
  lit "Items must be an array of strings".

(** Strings joined by a single newline, in the words of the specification:
    the first string, then each further string after a newline; nothing for
    no string at all. *)
Definition newline_separated (parts : list jsstring) : jsstring :=
  match parts with
  | [] => []
  | first :: others => first ++ flat_map (fun part => newline :: part) others
  end.

(** [s] starts with [p]. *)
Definition has_prefix (p s : jsstring) : Prop :=
  exists rest, s = p ++ rest.

(** The reference is refused: it starts with one of the two literal
    prefixes. *)
Definition forbidden_href (href : jsstring) : Prop :=
  has_prefix (lit "javascript:") href \/ has_prefix (lit "data:") href.

(** The anchor markup of the template literal. *)
Definition anchor (text href : jsstring) : jsstring :=
  lit "<a href=" ++ [dquote] ++ escape href ++ [dquote] ++ lit ">" ++
  escape text ++ lit "</a>".

(** ASCII lower case of a code unit. *)
Definition to_lower (c : char16) : char16 :=
  if (65 <=? c) && (c <=? 90) then c + 32 else c.

(** [v] spells [p] in another letter case: the same letters, and not all of
    them in the case of [p]. *)
Definition case_variant (p v : jsstring) : Prop :=
  map to_lower v = p /\ v <> p.

(** The value of [options.name] where reading it does not throw, and
    [undefined] where there is no object to read from. *)
Definition property (options : value) (name : string) : value :=
  match get options name with
  | inr v => v
  | inl _ => VUndefined
  end.

(** A required field is refused: not a string, or a string that is empty
    after trimming. *)
Definition refused_field (v : value) : Prop :=
  match v with
  | VString s => trim s = []
  | _ => True
  end.

(** A required field is accepted: a string that is not empty after
    trimming. *)
Definition accepted_field (v : value) : Prop :=
  match v with
  | VString s => trim s <> []
  | _ => False
  end.

(** The line of an optional block in the words of the specification: the
    two-space indentation of the template, followed by the block when the
    content is present and not empty, and by nothing otherwise. *)
Definition optional_line (tag : string) (content : option jsstring) : jsstring :=
  match content with
  | Some (c :: rest) =>
      lit "  <" ++ lit tag ++ lit ">" ++ escape (c :: rest) ++
      lit "</" ++ lit tag ++ lit ">"
  | _ => lit "  "
  end.

(** The document template of the specification, line by line. *)
Definition document (o : WebsiteOptions) : jsstring :=
  join [newline]
    [ lit "<!DOCTYPE html>";
      lit "<html lang=" ++ [dquote] ++ lit "en" ++ [dquote] ++ lit ">";
      lit "<head>";
      lit "  <meta charset=" ++ [dquote] ++ lit "UTF-8" ++ [dquote] ++ lit ">";
      lit "  <meta name=" ++ [dquote] ++ lit "viewport" ++ [dquote] ++
        lit " content=" ++ [dquote] ++
        lit "width=device-width, initial-scale=1.0" ++ [dquote] ++ lit ">";
      lit "  <title>" ++ escape (title o) ++ lit "</title>";
      optional_line "style" (styles o);
      lit "</head>";
      lit "<body>";
      lit "  " ++ escape (bodyContent o);
      optional_line "script" (scripts o);
      lit "</body>";
      lit "</html>" ].

(** * Notions of the further properties *)

(** The number of occurrences of a character in a string. *)
Fixpoint occurrences (c : char16) (s : jsstring) : nat :=
  match s with
  | [] => 0
  | x :: rest => ((if N.eqb x c then 1 else 0) + occurrences c rest)%nat
  end.

(** An integer in the safe range: one that is a number, and that the
    runtime prints digit by digit. *)
Definition safe_integer (n : Z) : Prop :=
  (- 2 ^ 53 < n < 2 ^ 53)%Z.

Definition is_string (v : value) : bool :=
  match v with
  | VString _ => true
  | _ => false
  end.

(** An argument that is an array all of whose elements are strings. *)
Definition array_of_strings (v : value) : bool :=
  match v with
  | VArray elements => forallb is_string elements
  | _ => false
  end.

(** A string made of white space only (the empty string included). *)
Definition blank (s : jsstring) : bool := forallb is_white_space s.

(** An optional field that the code can take: a falsy value of any type, or
    a string. *)
Definition optional_ok (v : value) : bool :=
  negb (truthy v) || is_string v.

(** What an optional field contributes: the string it holds, and nothing
    when it holds no string. *)
Definition optional_content (v : value) : option jsstring :=
  match v with
  | VString s => Some s
  | _ => None
  end.

(** The number of tags an optional block brings: an opening and a closing
    one when the content is present and not empty. *)
Definition block_tags (content : option jsstring) : nat :=
  match content with
  | Some (_ :: _) => 2%nat
  | _ => 0%nat
  end.

(** The template literal that [generateWebsite] returns, as a function of
    the four strings it interpolates. *)
Definition page (sanitizedTitle sanitizedBody sanitizedStyles sanitizedScripts : jsstring)
    : jsstring :=
  lit "<!DOCTYPE html>" ++ [newline] ++
  lit "<html lang=" ++ [dquote] ++ lit "en" ++ [dquote] ++ lit ">" ++ [newline] ++
  lit "<head>" ++ [newline] ++
  lit "  <meta charset=" ++ [dquote] ++ lit "UTF-8" ++ [dquote] ++ lit ">" ++ [newline] ++
  lit "  <meta name=" ++ [dquote] ++ lit "viewport" ++ [dquote] ++
    lit " content=" ++ [dquote] ++
    lit "width=device-width, initial-scale=1.0" ++ [dquote] ++ lit ">" ++ [newline] ++
  lit "  <title>" ++ sanitizedTitle ++ lit "</title>" ++ [newline] ++
  lit "  " ++ optional_block "style" sanitizedStyles ++ [newline] ++
  lit "</head>" ++ [newline] ++
  lit "<body>" ++ [newline] ++
  lit "  " ++ sanitizedBody ++ [newline] ++
  lit "  " ++ optional_block "script" sanitizedScripts ++ [newline] ++
  lit "</body>" ++ [newline] ++
  lit "</html>".

(** The options of a caller that passes its two required strings and, for
    the optional fields, whatever the given object holds. *)
Definition options_read (t b : jsstring) (options : value) : WebsiteOptions :=
  {| title := t;
     bodyContent := b;
     styles := optional_content (property options "styles");
     scripts := optional_content (property options "scripts") |}.

(** * Properties *)

(** ** The examples of the test suite that the code meets *)

Example test_heading_1 :
  createHeading (lit "Main Title") 1 = ret (lit "<h1>Main Title</h1>").
Proof. reflexivity. Qed.

Example test_heading_6 :
  createHeading (lit "Subsection") 6 = ret (lit "<h6>Subsection</h6>").
Proof. reflexivity. Qed.

Example test_paragraph :
  createParagraph (lit "This is a paragraph.") = ret (lit "<p>This is a paragraph.</p>").
Proof. reflexivity. Qed.

Example test_paragraph_empty :
  createParagraph [] = ret (lit "<p></p>").
Proof. reflexivity. Qed.

Example test_list_3 :
  createUnorderedList (VArray [VString (lit "Item 1"); VString (lit "Item 2"); VString (lit "Item 3")])
  = ret (lit "<ul>" ++ [newline] ++ lit "<li>Item 1</li>" ++ [newline] ++
         lit "<li>Item 2</li>" ++ [newline] ++ lit "<li>Item 3</li>" ++ [newline] ++ lit "</ul>").
Proof. reflexivity. Qed.

Example test_link :
  createLink (lit "Click here") (lit "https://example.com")
  = ret (lit "<a href=" ++ [dquote] ++ lit "https://example.com" ++ [dquote] ++
         lit ">Click here</a>").
Proof. reflexivity. Qed.

(** ** The error monad *)

(** A sequence throws when its first part throws or when the rest does. *)
Lemma bind_throws {A B : Type} (m : result A) (k : A -> result B) (e : exn) :
  bind m k = throw e ->
  m = throw e \/ exists a, m = ret a /\ k a = throw e.
Proof.
  unfold throw, ret. destruct m as [e' | a]; cbn [bind]; intros H.
  - left. injection H as ->. reflexivity.
  - right. exists a. split; [reflexivity | exact H].
Qed.

(** ** The escaper *)

Lemma matches_class_In (c : char16) :
  matches_class c = true <-> In c special_chars.
Proof.
  unfold matches_class. rewrite existsb_exists. split.
  - intros [x [Hin Heq]]. apply N.eqb_eq in Heq. now subst.
  - intros Hin. exists c. split; [assumption | apply N.eqb_refl].
Qed.

Lemma replace_all_cons (c : char16) (rest : jsstring) :
  replace_all (c :: rest) = escape_char c ++ replace_all rest.
Proof.
  cbn [replace_all]. unfold matches_class, replacer, escape_char.
  cbn [existsb special_chars entity_lookup entity_table].
  destruct (N.eqb_spec c 38); [reflexivity |].
  destruct (N.eqb_spec c 60); [reflexivity |].
  destruct (N.eqb_spec c 62); [reflexivity |].
  destruct (N.eqb_spec c 34); reflexivity.
Qed.

Lemma replace_all_escape (s : jsstring) : replace_all s = escape s.
Proof.
  induction s as [| c rest IH].
  - reflexivity.
  - rewrite replace_all_cons, IH. reflexivity.
Qed.

Lemma replace_all_app (a b : jsstring) :
  replace_all (a ++ b) = replace_all a ++ replace_all b.
Proof.
  rewrite !replace_all_escape. apply flat_map_app.
Qed.

Lemma sanitizeHTML_string (s : jsstring) :
  sanitizeHTML (VString s) = ret (replace_all s).
Proof. reflexivity. Qed.



Lemma escape_char_length (c : char16) : (1 <= List.length (escape_char c))%nat.
Proof.
  unfold escape_char.
  destruct (c =? 38); [cbn; lia |].
  destruct (c =? 60); [cbn; lia |].
  destruct (c =? 62); [cbn; lia |].
  destruct (c =? 34); cbn; lia.
Qed.

Lemma replace_all_length (s : jsstring) :
  (List.length s <= List.length (replace_all s))%nat.
Proof.
  induction s as [| c rest IH]; [cbn; lia |].
  rewrite replace_all_cons, length_app. cbn [List.length].
  pose proof (escape_char_length c). length_lia.
Qed.




Lemma contains_special_dec (s : jsstring) :
  {contains_special s} + {~ contains_special s}.
Proof.
  destruct (existsb matches_class s) eqn:E.
  - left. apply existsb_exists in E. destruct E as [c [Hin Hc]].
    exists c. split; [assumption | now apply matches_class_In].
  - right. intros [c [Hin Hc]].
    assert (existsb matches_class s = true); [| congruence].
    apply existsb_exists. exists c. split; [assumption | now apply matches_class_In].
Qed.

(** C7: on every string the escaper returns (it is total), and what it
    returns is the concatenation, in input order, of the images of the
    input's characters under the fixed mapping: the ampersand, less-than,
    greater-than and double-quote characters go to their entities, every
    other character to itself; nothing substituted is scanned again, so an
    ampersand becomes one entity and not a doubled one; a single quote is
    kept; the empty string gives the empty string. *)
Theorem sanitizeHTML_escape :
  (forall s, sanitizeHTML (VString s) = ret (escape s)) /\
  (forall a b, escape (a ++ b) = escape a ++ escape b) /\
  sanitizeHTML (VString []) = ret [] /\
  sanitizeHTML (VString (lit "&")) = ret (lit "&amp;") /\
  sanitizeHTML (VString (lit "<")) = ret (lit "&lt;") /\
  sanitizeHTML (VString (lit ">")) = ret (lit "&gt;") /\
  sanitizeHTML (VString [dquote]) = ret (lit "&quot;") /\
  sanitizeHTML (VString (lit "'")) = ret (lit "'") /\
  sanitizeHTML (VString (lit "a&b")) = ret (lit "a&amp;b").
Proof.
  split; [| split].
  - intros s. rewrite sanitizeHTML_string, replace_all_escape. reflexivity.
  - intros a b. apply flat_map_app.
  - repeat split; reflexivity.
Qed.



(** ** createHeading *)

Lemma numberToString_digit (level : Z) :
  (1 <= level <= 6)%Z -> numberToString level = [Z.to_N (48 + level)].
Proof.
  intros H.
  assert (level = 1 \/ level = 2 \/ level = 3 \/ level = 4 \/ level = 5 \/ level = 6)%Z
    as Hcases by lia.
  destruct Hcases as [-> | [-> | [-> | [-> | [-> | ->]]]]]; reflexivity.
Qed.

(** C1, as the code has it: the function holds no check of the level.  For
    every text and every integer level, inside the range 1 to 6 or outside
    it, it returns the heading markup with the level written in decimal; at
    the levels 0 and 7 of the test suite it returns a string and raises no
    error. *)
Theorem createHeading_never_throws :
  (forall text level,
     createHeading text level =
     ret (lit "<h" ++ numberToString level ++ lit ">" ++ escape text ++
          lit "</h" ++ numberToString level ++ lit ">")) /\
  createHeading (lit "Invalid") 0 = ret (lit "<h0>Invalid</h0>") /\
  createHeading (lit "Invalid") 7 = ret (lit "<h7>Invalid</h7>") /\
  createHeading (lit "Invalid") (-1) = ret (lit "<h-1>Invalid</h-1>") /\
  createHeading (lit "Invalid") 100 = ret (lit "<h100>Invalid</h100>").
Proof.
  split.
  - intros text level. unfold createHeading.
    rewrite sanitizeHTML_string, replace_all_escape. reflexivity.
  - repeat split; reflexivity.
Qed.

(** ** createUnorderedList *)

Lemma list_item_throws (item : value) (e : exn) :
  list_item item = throw e -> exists cause, e = TypeError cause.
Proof.
  unfold list_item, sanitizeHTML, string_method, throw.
  destruct item; cbn; intros H; inversion H; eauto.
Qed.

Lemma mapM_list_item_throws (elements : list value) (e : exn) :
  mapM list_item elements = throw e -> exists cause, e = TypeError cause.
Proof.
  unfold ret, throw.
  induction elements as [| item rest IH]; cbn [mapM]; [discriminate |].
  destruct (list_item item) as [e' | li] eqn:Hitem; cbn [bind].
  - intros H. inversion H. subst e'. eapply list_item_throws, Hitem.
  - destruct (mapM list_item rest) as [e' | lis]; cbn [bind]; [| discriminate].
    intros H. inversion H. subst e'. apply IH. reflexivity.
Qed.

Lemma mapM_list_item_strings (items : list jsstring) :
  mapM list_item (map VString items) =
  ret (map (fun item => lit "<li>" ++ escape item ++ lit "</li>") items).
Proof.
  induction items as [| item rest IH]; [reflexivity |].
  cbn [map mapM]. rewrite IH.
  unfold list_item. rewrite sanitizeHTML_string, replace_all_escape.
  reflexivity.
Qed.

(** C2, as the code has it: the function holds no check of its argument.
    On the string of the test suite the call of [items.map] raises the
    runtime's [TypeError], whose message is not the one claimed; and on no
    argument at all does the function raise an error with the claimed
    message. *)
Theorem createUnorderedList_not_an_array :
  createUnorderedList (VString (lit "not an array")) =
    throw (TypeError (NotAFunction "items.map")) /\
  message_of (TypeError (NotAFunction "items.map")) =
    lit "items.map is not a function" /\
  message_of (TypeError (NotAFunction "items.map")) <> items_required /\
  (forall items, createUnorderedList items <> throw (Error items_required)).
Proof.
  split; [reflexivity |]. split; [reflexivity |]. split; [discriminate |].
  intros items H. unfold createUnorderedList in H.
  apply bind_throws in H. destruct H as [Hmap | [mapped [_ H]]];
    [| discriminate H].
  destruct items; cbn [array_map] in Hmap; try discriminate Hmap.
  destruct (mapM_list_item_throws _ _ Hmap) as [cause Hc]. discriminate Hc.
Qed.

Lemma join_cons (separator p q : jsstring) (rest : list jsstring) :
  join separator (p :: q :: rest) = p ++ separator ++ join separator (q :: rest).
Proof. reflexivity. Qed.

(** What [join] returns with a newline as separator is the first string
    followed by each further string after one newline. *)
Lemma join_newline_separated (parts : list jsstring) :
  join [newline] parts = newline_separated parts.
Proof.
  induction parts as [| p rest IH]; [reflexivity |].
  destruct rest as [| q rest].
  - cbn. symmetry. apply app_nil_r.
  - rewrite join_cons, IH. reflexivity.
Qed.

(** C8: on an array of strings the function returns the opening tag and a
    newline, then the list elements (each item escaped on its own, between
    its item tags) joined by a single newline, that is the first element
    followed by each further element after one newline, then a newline and
    the closing tag; on the empty array that is the opening tag, two
    newlines and the closing tag. *)
Theorem createUnorderedList_strings (items : list jsstring) :
  createUnorderedList (VArray (map VString items)) =
    ret (lit "<ul>" ++ [newline] ++
         newline_separated
           (map (fun item => lit "<li>" ++ escape item ++ lit "</li>") items) ++
         [newline] ++ lit "</ul>") /\
  createUnorderedList (VArray []) =
    ret (lit "<ul>" ++ [newline; newline] ++ lit "</ul>") /\
  createUnorderedList (VArray [VString (lit "a"); VString (lit "b<c")]) =
    ret (lit "<ul>" ++ [newline] ++ lit "<li>a</li>" ++ [newline] ++
         lit "<li>b&lt;c</li>" ++ [newline] ++ lit "</ul>").
Proof.
  split; [| split; reflexivity].
  unfold createUnorderedList. cbn [array_map].
  rewrite mapM_list_item_strings. cbn [bind ret].
  rewrite join_newline_separated. reflexivity.
Qed.

(** ** createLink *)

Lemma startsWith_has_prefix (p s : jsstring) :
  startsWith p s = true <-> has_prefix p s.
Proof.
  revert s. induction p as [| a p IH]; intros s; cbn [startsWith].
  - split; [intros _; exists s; reflexivity | reflexivity].
  - destruct s as [| c s].
    + split; [discriminate | intros [rest H]; discriminate H].
    + rewrite andb_true_iff, N.eqb_eq, IH. split.
      * intros [-> [rest ->]]. exists rest. reflexivity.
      * intros [rest H]. cbn in H. injection H as -> ->.
        split; [reflexivity | exists rest; reflexivity].
Qed.

Lemma forbidden_href_test (href : jsstring) :
  startsWith (lit "javascript:") href || startsWith (lit "data:") href = true
  <-> forbidden_href href.
Proof.
  unfold forbidden_href.
  rewrite orb_true_iff, !startsWith_has_prefix. reflexivity.
Qed.

Lemma createLink_allowed (text href : jsstring) :
  ~ forbidden_href href -> createLink text href = ret (anchor text href).
Proof.
  intros Hok. unfold createLink.
  destruct (startsWith (lit "javascript:") href || startsWith (lit "data:") href)
    eqn:Htest.
  - exfalso. apply Hok, forbidden_href_test, Htest.
  - rewrite !sanitizeHTML_string, !replace_all_escape. reflexivity.
Qed.

Lemma createLink_forbidden (text href : jsstring) :
  forbidden_href href -> createLink text href = throw (Error xss_detected).
Proof.
  intros Hbad. apply forbidden_href_test in Hbad.
  unfold createLink. rewrite Hbad. reflexivity.
Qed.

(** C3, as the code has it: on the empty text and the empty reference the
    function returns the anchor with its closing tag, as on every other
    accepted input; what it returns is not the unclosed opening tag. *)
Theorem createLink_empty_closed :
  createLink [] [] = ret (lit "<a href=" ++ [dquote; dquote] ++ lit "></a>") /\
  createLink [] [] <> ret (lit "<a href=" ++ [dquote; dquote] ++ lit ">").
Proof.
  split; [reflexivity | discriminate].
Qed.

(** C6: the function fails with the message of the detected attack exactly
    when the reference as given, before any escaping, starts with one of the
    two literal prefixes; on every other reference it returns the anchor
    with the reference and the text escaped. *)
Theorem createLink_xss_iff (text href : jsstring) :
  (createLink text href =
     throw (Error (lit "Invalid href: Potential XSS attack detected"))
   <-> forbidden_href href) /\
  (~ forbidden_href href ->
   createLink text href =
     ret (lit "<a href=" ++ [dquote] ++ escape href ++ [dquote] ++ lit ">" ++
          escape text ++ lit "</a>")).
Proof.
  split; [split |].
  - intros Hthrow. apply forbidden_href_test.
    unfold createLink in Hthrow.
    destruct (startsWith (lit "javascript:") href || startsWith (lit "data:") href);
      [reflexivity |].
    rewrite !sanitizeHTML_string in Hthrow. discriminate Hthrow.
  - apply createLink_forbidden.
  - apply createLink_allowed.
Qed.

Lemma createLink_xss_iff_witness :
  createLink (lit "x") (lit "javascript:alert(1)") =
    throw (Error (lit "Invalid href: Potential XSS attack detected")) /\
  createLink (lit "Click here") (lit "https://example.com") =
    ret (lit "<a href=" ++ [dquote] ++ lit "https://example.com" ++ [dquote] ++
         lit ">Click here</a>").
Proof.
  split.
  - apply (proj2 (proj1 (createLink_xss_iff (lit "x") (lit "javascript:alert(1)")))).
    left. exists (lit "alert(1)"). reflexivity.
  - apply (proj2 (createLink_xss_iff (lit "Click here") (lit "https://example.com"))).
    intros [[rest H] | [rest H]]; discriminate H.
Defined.

Lemma has_prefix_same_length (p v rest : jsstring) :
  List.length v = List.length p -> has_prefix p (v ++ rest) -> v = p.
Proof.
  revert v. induction p as [| a p IH]; intros [| c v] Hlen Hpre;
    try discriminate Hlen; [reflexivity |].
  destruct Hpre as [r H]. cbn in H. injection H as -> H.
  f_equal. apply IH.
  - cbn in Hlen. lia.
  - exists r. exact H.
Qed.

Lemma case_variant_not_prefix (p v rest : jsstring) :
  case_variant p v -> ~ has_prefix p (v ++ rest).
Proof.
  intros [Hlow Hneq] Hpre. apply Hneq.
  apply has_prefix_same_length with (rest := rest); [| assumption].
  rewrite <- Hlow. symmetry. apply length_map.
Qed.

(** A prefix whose first letter differs, whatever its case, is not a prefix
    of a case variant. *)
Lemma case_variant_other_prefix (a b : char16) (p q v rest : jsstring) :
  to_lower b = b -> a <> b ->
  case_variant (a :: p) v -> ~ has_prefix (b :: q) (v ++ rest).
Proof.
  intros Hb Hab [Hlow _] [r H].
  destruct v as [| c v]; [discriminate Hlow |].
  cbn in Hlow, H. injection Hlow as Hc _. injection H as -> _.
  congruence.
Qed.

(** C10: the prefix test compares letters as they are.  When the reference
    starts with a spelling of one of the two prefixes in another letter
    case, the function does not fail: it returns the anchor with that
    reference escaped. *)
Theorem createLink_case_sensitive (text v rest : jsstring) :
  case_variant (lit "javascript:") v \/ case_variant (lit "data:") v ->
  createLink text (v ++ rest) =
    ret (lit "<a href=" ++ [dquote] ++ escape (v ++ rest) ++ [dquote] ++
         lit ">" ++ escape text ++ lit "</a>").
Proof.
  intros Hv. apply createLink_allowed.
  intros [Hjs | Hdata]; destruct Hv as [Hv | Hv].
  - exact (case_variant_not_prefix _ _ _ Hv Hjs).
  - revert Hjs. apply (case_variant_other_prefix 100 106 (lit "ata:"));
      [reflexivity | discriminate | exact Hv].
  - revert Hdata. apply (case_variant_other_prefix 106 100 (lit "avascript:"));
      [reflexivity | discriminate | exact Hv].
  - exact (case_variant_not_prefix _ _ _ Hv Hdata).
Qed.

Lemma createLink_case_sensitive_witness :
  createLink (lit "x") (lit "JavaScript:alert(1)") =
    ret (lit "<a href=" ++ [dquote] ++ lit "JavaScript:alert(1)" ++ [dquote] ++
         lit ">x</a>") /\
  createLink (lit "x") (lit "DATA:text/html,hi") =
    ret (lit "<a href=" ++ [dquote] ++ lit "DATA:text/html,hi" ++ [dquote] ++
         lit ">x</a>").
Proof.
  split.
  - apply (createLink_case_sensitive (lit "x") (lit "JavaScript:") (lit "alert(1)")).
    left. split; [reflexivity | discriminate].
  - apply (createLink_case_sensitive (lit "x") (lit "DATA:") (lit "text/html,hi")).
    right. split; [reflexivity | discriminate].
Defined.

(** ** generateWebsite *)

Lemma is_empty_nil (s : jsstring) : is_empty s = true <-> s = [].
Proof.
  destruct s; cbn; split; congruence.
Qed.

Lemma get_object (properties : list (jsstring * value)) (name : string) :
  get (VObject properties) name =
  ret (match lookup (lit name) properties with
       | Some v => v
       | None => VUndefined
       end).
Proof.
  cbn [get]. destruct (lookup (lit name) properties); reflexivity.
Qed.

(** On a value that is truthy, a property read does not throw. *)
Lemma get_truthy (options : value) (name : string) :
  truthy options = true -> get options name = ret (property options name).
Proof.
  unfold property.
  destruct options; cbn [truthy]; try discriminate; intros _;
    try reflexivity.
  rewrite get_object. reflexivity.
Qed.

Lemma property_falsy (options : value) (name : string) :
  truthy options = false -> property options name = VUndefined.
Proof.
  unfold property. destruct options; cbn; try discriminate; reflexivity.
Qed.

Lemma title_rejected_spec (options : value) :
  (refused_field (property options "title") ->
   title_rejected options = ret true) /\
  (accepted_field (property options "title") ->
   title_rejected options = ret false).
Proof.
  unfold title_rejected.
  destruct (truthy options) eqn:Htruthy; cbn [negb].
  - rewrite !get_truthy by assumption. cbn [bind ret].
    destruct (property options "title"); cbn;
      try (split; [reflexivity | intros []]).
    split; intros H.
    + rewrite (proj2 (is_empty_nil _) H). reflexivity.
    + destruct (trim s); [contradiction | reflexivity].
  - rewrite property_falsy by assumption. cbn.
    split; [reflexivity | intros []].
Qed.

Lemma body_rejected_spec (options : value) :
  truthy options = true ->
  (refused_field (property options "bodyContent") ->
   body_rejected options = ret true) /\
  (accepted_field (property options "bodyContent") ->
   body_rejected options = ret false).
Proof.
  intros Htruthy. unfold body_rejected.
  rewrite !get_truthy by assumption. cbn [bind ret].
  destruct (property options "bodyContent"); cbn;
    try (split; [reflexivity | intros []]).
  split; intros H.
  + rewrite (proj2 (is_empty_nil _) H). reflexivity.
  + destruct (trim s); [contradiction | reflexivity].
Qed.

Lemma accepted_truthy (options : value) (name : string) :
  accepted_field (property options name) -> truthy options = true.
Proof.
  destruct (truthy options) eqn:Htruthy; [reflexivity |].
  rewrite property_falsy by assumption. intros [].
Qed.

(** C5: when the title is not a string, or is a string empty after
    trimming, the function fails with the message that a title is required,
    whatever the body content is (the title is checked first); when the
    title is accepted and the body content is not a string, or is empty
    after trimming, it fails with the message that body content is required.
    A failure is a thrown error: no document is returned. *)
Theorem generateWebsite_validation (options : value) :
  (refused_field (property options "title") ->
   generateWebsite options =
     throw (Error (lit "Title is required and must be a non-empty string"))) /\
  (accepted_field (property options "title") ->
   refused_field (property options "bodyContent") ->
   generateWebsite options =
     throw (Error (lit "Body content is required and must be a non-empty string"))).
Proof.
  unfold generateWebsite. split.
  - intros Htitle.
    rewrite (proj1 (title_rejected_spec options) Htitle). reflexivity.
  - intros Htitle Hbody.
    rewrite (proj2 (title_rejected_spec options) Htitle). cbn [bind ret].
    rewrite (proj1 (body_rejected_spec options (accepted_truthy _ _ Htitle)) Hbody).
    reflexivity.
Qed.

Lemma generateWebsite_validation_witness :
  generateWebsite
    (VObject [(lit "title", VString []);
              (lit "bodyContent", VString (lit "<p>Content</p>"))]) =
    throw (Error (lit "Title is required and must be a non-empty string")) /\
  generateWebsite (VObject [(lit "bodyContent", VNumber 5)]) =
    throw (Error (lit "Title is required and must be a non-empty string")) /\
  generateWebsite VUndefined =
    throw (Error (lit "Title is required and must be a non-empty string")) /\
  generateWebsite (VObject [(lit "title", VString (lit "Test"))]) =
    throw (Error (lit "Body content is required and must be a non-empty string")) /\
  generateWebsite
    (VObject [(lit "title", VString (lit "Test"));
              (lit "bodyContent", VString (lit "  "))]) =
    throw (Error (lit "Body content is required and must be a non-empty string")).
Proof.
  split; [| split; [| split; [| split]]].
  - apply (proj1 (generateWebsite_validation _)). reflexivity.
  - apply (proj1 (generateWebsite_validation _)). exact I.
  - apply (proj1 (generateWebsite_validation _)). exact I.
  - apply (proj2 (generateWebsite_validation _)); [discriminate | exact I].
  - apply (proj2 (generateWebsite_validation _)); [discriminate | reflexivity].
Defined.

Lemma options_object_truthy (o : WebsiteOptions) :
  truthy (options_object o) = true.
Proof. reflexivity. Qed.

Lemma property_title (o : WebsiteOptions) :
  property (options_object o) "title" = VString (title o).
Proof. reflexivity. Qed.

Lemma property_bodyContent (o : WebsiteOptions) :
  property (options_object o) "bodyContent" = VString (bodyContent o).
Proof. reflexivity. Qed.

Lemma property_styles (o : WebsiteOptions) :
  property (options_object o) "styles" =
  match styles o with
  | Some s => VString s
  | None => VUndefined
  end.
Proof.
  destruct o as [t b [s |] [s' |]]; reflexivity.
Qed.

Lemma property_scripts (o : WebsiteOptions) :
  property (options_object o) "scripts" =
  match scripts o with
  | Some s => VString s
  | None => VUndefined
  end.
Proof.
  destruct o as [t b [s |] [s' |]]; reflexivity.
Qed.

Lemma escape_empty (s : jsstring) : is_empty (escape s) = is_empty s.
Proof.
  destruct s as [| c rest]; [reflexivity |].
  cbn [is_empty]. rewrite <- replace_all_escape.
  pose proof (replace_all_length (c :: rest)) as Hlen.
  destruct (replace_all (c :: rest)); [cbn in Hlen; lia | reflexivity].
Qed.

(** The indentation and the optional block of the template make the line of
    the specification. *)
Lemma optional_block_line (o : value) (name tag : string) (content : option jsstring) :
  truthy o = true ->
  property o name = match content with
                    | Some s => VString s
                    | None => VUndefined
                    end ->
  exists sanitized,
    sanitized_optional o name = ret sanitized /\
    lit "  " ++ optional_block tag sanitized = optional_line tag content.
Proof.
  intros Htruthy Hprop. unfold sanitized_optional.
  rewrite !get_truthy, Hprop by assumption. cbn [bind ret].
  destruct content as [[| c rest] |]; cbn [truthy is_empty negb].
  - exists []. split; reflexivity.
  - exists (escape (c :: rest)). split.
    + rewrite sanitizeHTML_string, replace_all_escape. reflexivity.
    + unfold optional_block, optional_line. cbn [truthy].
      rewrite escape_empty. reflexivity.
  - exists []. split; reflexivity.
Qed.

(** C4: on an options record whose title and body content are not empty
    after trimming, the function returns the document of the template, with
    the title, the body content and, where present, the styles and the
    scripts each escaped on its own; the line of an absent (or empty) styles
    or scripts field holds the two-space indentation of the template and
    nothing else.  With both fields absent the document is the one written
    out in the second part. *)
Theorem generateWebsite_document (o : WebsiteOptions) :
  trim (title o) <> [] ->
  trim (bodyContent o) <> [] ->
  generateWebsite (options_object o) = ret (document o) /\
  optional_line "style" None = [32; 32] /\
  optional_line "script" None = [32; 32] /\
  (styles o = None -> scripts o = None ->
   generateWebsite (options_object o) =
     ret (lit "<!DOCTYPE html>" ++ [newline] ++
          lit "<html lang=" ++ [dquote] ++ lit "en" ++ [dquote] ++ lit ">" ++ [newline] ++
          lit "<head>" ++ [newline] ++
          lit "  <meta charset=" ++ [dquote] ++ lit "UTF-8" ++ [dquote] ++ lit ">" ++ [newline] ++
          lit "  <meta name=" ++ [dquote] ++ lit "viewport" ++ [dquote] ++
            lit " content=" ++ [dquote] ++
            lit "width=device-width, initial-scale=1.0" ++ [dquote] ++ lit ">" ++ [newline] ++
          lit "  <title>" ++ escape (title o) ++ lit "</title>" ++ [newline] ++
          lit "  " ++ [newline] ++
          lit "</head>" ++ [newline] ++
          lit "<body>" ++ [newline] ++
          lit "  " ++ escape (bodyContent o) ++ [newline] ++
          lit "  " ++ [newline] ++
          lit "</body>" ++ [newline] ++
          lit "</html>")).
Proof.
  intros Htitle Hbody.
  assert (generateWebsite (options_object o) = ret (document o)) as Hdoc.
  { unfold generateWebsite.
    rewrite (proj2 (title_rejected_spec _)) by (rewrite property_title; exact Htitle).
    cbn [bind ret].
    rewrite (proj2 (body_rejected_spec _ (options_object_truthy o)))
      by (rewrite property_bodyContent; exact Hbody).
    cbn [bind ret].
    rewrite !get_truthy by apply options_object_truthy.
    rewrite property_title, property_bodyContent. cbn [bind ret].
    rewrite !sanitizeHTML_string, !replace_all_escape. cbn [bind ret].
    destruct (optional_block_line (options_object o) "styles" "style" (styles o)
                (options_object_truthy o) (property_styles o))
      as [sanitizedStyles [-> Hstyle]].
    destruct (optional_block_line (options_object o) "scripts" "script" (scripts o)
                (options_object_truthy o) (property_scripts o))
      as [sanitizedScripts [-> Hscript]].
    cbn [bind ret]. unfold document. rewrite <- Hstyle, <- Hscript.
    f_equal. cbn [join]. rewrite <- !app_assoc. reflexivity. }
  split; [exact Hdoc |]. split; [reflexivity |]. split; [reflexivity |].
  intros Hst Hsc. rewrite Hdoc. unfold document. rewrite Hst, Hsc.
  f_equal. cbn [join optional_line]. rewrite <- !app_assoc. reflexivity.
Qed.

Lemma generateWebsite_document_witness :
  generateWebsite
    (options_object {| title := lit "Simple Site";
                       bodyContent := lit "<p>Content</p>";
                       styles := None;
                       scripts := None |}) =
  ret (lit "<!DOCTYPE html>" ++ [newline] ++
       lit "<html lang=" ++ [dquote] ++ lit "en" ++ [dquote] ++ lit ">" ++ [newline] ++
       lit "<head>" ++ [newline] ++
       lit "  <meta charset=" ++ [dquote] ++ lit "UTF-8" ++ [dquote] ++ lit ">" ++ [newline] ++
       lit "  <meta name=" ++ [dquote] ++ lit "viewport" ++ [dquote] ++
         lit " content=" ++ [dquote] ++
         lit "width=device-width, initial-scale=1.0" ++ [dquote] ++ lit ">" ++ [newline] ++
       lit "  <title>Simple Site</title>" ++ [newline] ++
       lit "  " ++ [newline] ++
       lit "</head>" ++ [newline] ++
       lit "<body>" ++ [newline] ++
       lit "  &lt;p&gt;Content&lt;/p&gt;" ++ [newline] ++
       lit "  " ++ [newline] ++
       lit "</body>" ++ [newline] ++
       lit "</html>").
Proof.
  apply (generateWebsite_document
           {| title := lit "Simple Site";
              bodyContent := lit "<p>Content</p>";
              styles := None;
              scripts := None |});
    [discriminate | discriminate | reflexivity | reflexivity].
Defined.

(** * Further properties *)

(** ** Counting characters *)

Lemma occurrences_app (c : char16) (a b : jsstring) :
  occurrences c (a ++ b) = (occurrences c a + occurrences c b)%nat.
Proof.
  induction a as [| x a IH]; [reflexivity |].
  cbn [app occurrences]. rewrite IH. lia.
Qed.

Lemma occurrences_absent (c : char16) (s : jsstring) :
  ~ In c s -> occurrences c s = 0%nat.
Proof.
  induction s as [| x s IH]; intros Hc; [reflexivity |].
  cbn [occurrences]. rewrite IH by (intros H; apply Hc; now right).
  destruct (N.eqb_spec x c); [exfalso; apply Hc; now left | reflexivity].
Qed.

(** ** The escaper: what its output holds *)

Lemma escape_cons (c : char16) (rest : jsstring) :
  escape (c :: rest) = escape_char c ++ escape rest.
Proof. reflexivity. Qed.

Lemma escape_char_markup_free (c x : char16) :
  In x (escape_char c) -> x <> 60 /\ x <> 62 /\ x <> 34.
Proof.
  unfold escape_char.
  destruct (N.eqb_spec c 38) as [| H38];
    [cbn; intros H; repeat (destruct H as [<- | H]; [repeat split; discriminate |]);
     destruct H |].
  destruct (N.eqb_spec c 60) as [| H60];
    [cbn; intros H; repeat (destruct H as [<- | H]; [repeat split; discriminate |]);
     destruct H |].
  destruct (N.eqb_spec c 62) as [| H62];
    [cbn; intros H; repeat (destruct H as [<- | H]; [repeat split; discriminate |]);
     destruct H |].
  destruct (N.eqb_spec c 34) as [| H34];
    [cbn; intros H; repeat (destruct H as [<- | H]; [repeat split; discriminate |]);
     destruct H |].
  intros [<- | []]. repeat split; assumption.
Qed.

Lemma escape_markup_free (s : jsstring) (x : char16) :
  In x (escape s) -> x <> 60 /\ x <> 62 /\ x <> 34.
Proof.
  induction s as [| c rest IH]; [intros [] |].
  rewrite escape_cons. intros H. apply in_app_or in H.
  destruct H as [H | H]; [eapply escape_char_markup_free, H | apply IH, H].
Qed.

Lemma occurrences_escape (s : jsstring) :
  occurrences 60 (escape s) = 0%nat /\
  occurrences 62 (escape s) = 0%nat /\
  occurrences 34 (escape s) = 0%nat.
Proof.
  repeat split; apply occurrences_absent; intros H;
    apply escape_markup_free in H; destruct H as [H1 [H2 H3]]; congruence.
Qed.

(** X1: whatever the input string is, the escaped string holds no
    less-than sign, no greater-than sign and no double quote. *)
Theorem sanitizeHTML_markup_free (s : jsstring) :
  exists r, sanitizeHTML (VString s) = ret r /\
            ~ In 60 r /\ ~ In 62 r /\ ~ In 34 r.
Proof.
  exists (escape s). split.
  - rewrite sanitizeHTML_string, replace_all_escape. reflexivity.
  - repeat split; intros H; apply escape_markup_free in H;
      destruct H as [H1 [H2 H3]]; congruence.
Qed.

(** Two characters whose images start two equal strings are equal, and so
    are the remainders: the images form a prefix code. *)
Lemma escape_char_prefix_code (c d : char16) (x y : jsstring) :
  escape_char c ++ x = escape_char d ++ y -> c = d /\ x = y.
Proof.
  unfold escape_char.
  destruct (N.eqb_spec c 38) as [-> | Hc38];
    [| destruct (N.eqb_spec c 60) as [-> | Hc60];
       [| destruct (N.eqb_spec c 62) as [-> | Hc62];
          [| destruct (N.eqb_spec c 34) as [-> | Hc34]]]];
  (destruct (N.eqb_spec d 38) as [-> | Hd38];
    [| destruct (N.eqb_spec d 60) as [-> | Hd60];
       [| destruct (N.eqb_spec d 62) as [-> | Hd62];
          [| destruct (N.eqb_spec d 34) as [-> | Hd34]]]]);
  cbn; intros H; try discriminate H;
  try (injection H as H; split; [reflexivity | assumption]);
  try (injection H as H _; congruence).
  injection H as -> ->. split; reflexivity.
Qed.

Lemma escape_injective (a b : jsstring) : escape a = escape b -> a = b.
Proof.
  revert b. induction a as [| c a IH]; intros [| d b] H.
  - reflexivity.
  - rewrite escape_cons in H. cbn [escape flat_map] in H.
    pose proof (escape_char_length d) as Hlen.
    destruct (escape_char d); [cbn in Hlen; lia | discriminate H].
  - rewrite escape_cons in H. cbn [escape flat_map] in H.
    pose proof (escape_char_length c) as Hlen.
    destruct (escape_char c); [cbn in Hlen; lia | discriminate H].
  - rewrite !escape_cons in H. apply escape_char_prefix_code in H.
    destruct H as [-> H]. f_equal. apply IH, H.
Qed.

(** X2: the escaper loses nothing: two different strings have different
    escaped strings. *)
Theorem sanitizeHTML_injective (a b : jsstring) :
  a <> b -> sanitizeHTML (VString a) <> sanitizeHTML (VString b).
Proof.
  intros Hab H. apply Hab. rewrite !sanitizeHTML_string in H.
  injection H as H. rewrite !replace_all_escape in H.
  apply escape_injective, H.
Qed.

Lemma sanitizeHTML_injective_witness :
  sanitizeHTML (VString (lit "<")) <> sanitizeHTML (VString (lit "&lt;")).
Proof.
  apply (sanitizeHTML_injective (lit "<") (lit "&lt;")). discriminate.
Defined.

(** X3: the length of the escaped string is the length of the input plus
    four for each ampersand, three for each less-than and greater-than sign
    and five for each double quote. *)
Theorem sanitizeHTML_length (s : jsstring) :
  exists r, sanitizeHTML (VString s) = ret r /\
    List.length r =
    (List.length s + 4 * occurrences 38%N s + 3 * occurrences 60%N s +
     3 * occurrences 62%N s + 5 * occurrences 34%N s)%nat.
Proof.
  exists (escape s). split.
  - rewrite sanitizeHTML_string, replace_all_escape. reflexivity.
  - induction s as [| c rest IH]; [reflexivity |].
    rewrite escape_cons, length_app, IH. cbn [occurrences List.length].
    unfold escape_char.
    destruct (N.eqb_spec c 38) as [-> | H38]; [cbn; lia |].
    destruct (N.eqb_spec c 60) as [-> | H60]; [cbn; lia |].
    destruct (N.eqb_spec c 62) as [-> | H62]; [cbn; lia |].
    destruct (N.eqb_spec c 34) as [-> | H34]; cbn; lia.
Qed.

(** ** The fragment builders: what the caller's text cannot add *)

Lemma digits_markup_free (d : Decimal.uint) (x : char16) :
  In x (lit (NilEmpty.string_of_uint d)) -> x <> 60 /\ x <> 62 /\ x <> 34.
Proof.
  induction d; cbn; intros H;
    try (destruct H as [<- | H]; [repeat split; discriminate | apply IHd, H]).
  destruct H.
Qed.

Lemma numberToString_markup_free (n : Z) (x : char16) :
  In x (numberToString n) -> x <> 60 /\ x <> 62 /\ x <> 34.
Proof.
  unfold numberToString, NilZero.string_of_int, NilZero.string_of_uint.
  destruct (Z.to_int n) as [d | d].
  - destruct d; try apply digits_markup_free.
    cbn. intros [<- | []]. repeat split; discriminate.
  - cbn [lit]. intros [<- | H]; [repeat split; discriminate |].
    revert H. destruct d; try apply digits_markup_free.
    cbn. intros [<- | []]. repeat split; discriminate.
Qed.

Lemma occurrences_numberToString (n : Z) :
  occurrences 60 (numberToString n) = 0%nat /\
  occurrences 62 (numberToString n) = 0%nat /\
  occurrences 34 (numberToString n) = 0%nat.
Proof.
  repeat split; apply occurrences_absent; intros H;
    apply numberToString_markup_free in H; destruct H as [H1 [H2 H3]];
    congruence.
Qed.

Create Rewrite HintDb markup.

#[local] Hint Rewrite occurrences_app
  (fun s => proj1 (occurrences_escape s))
  (fun s => proj1 (proj2 (occurrences_escape s)))
  (fun s => proj2 (proj2 (occurrences_escape s)))
  (fun n => proj1 (occurrences_numberToString n))
  (fun n => proj1 (proj2 (occurrences_numberToString n)))
  (fun n => proj2 (proj2 (occurrences_numberToString n))) : markup.

(** X4: a paragraph is returned for every text, and whatever the text holds
    the result has the less-than and greater-than signs of its two tags
    only, and no double quote. *)
Theorem createParagraph_markup (text : jsstring) :
  exists r, createParagraph text = ret r /\
            r = lit "<p>" ++ escape text ++ lit "</p>" /\
            occurrences 60 r = 2%nat /\
            occurrences 62 r = 2%nat /\
            occurrences 34 r = 0%nat.
Proof.
  eexists. split; [| split; [reflexivity |]].
  - unfold createParagraph. rewrite sanitizeHTML_string, replace_all_escape.
    reflexivity.
  - repeat split; autorewrite with markup; reflexivity.
Qed.

(** X5: whatever the text, and at every level that is a safe integer, in
    the range 1 to 6 or not, the heading that is returned has the less-than
    and greater-than signs of its two tags only, and no double quote. *)
Theorem createHeading_markup (text : jsstring) (level : Z) :
  safe_integer level ->
  exists r, createHeading text level = ret r /\
            occurrences 60 r = 2%nat /\
            occurrences 62 r = 2%nat /\
            occurrences 34 r = 0%nat.
Proof.
  intros _. eexists. split.
  - unfold createHeading. rewrite sanitizeHTML_string, replace_all_escape.
    reflexivity.
  - cbn [bind ret]. repeat split; autorewrite with markup; reflexivity.
Qed.

Lemma createHeading_markup_witness :
  exists r, createHeading (lit "<b>x</b>") (-7) = ret r /\
            occurrences 60 r = 2%nat /\
            occurrences 62 r = 2%nat /\
            occurrences 34 r = 0%nat.
Proof.
  apply (createHeading_markup (lit "<b>x</b>") (-7)).
  unfold safe_integer. lia.
Defined.

(** X6: at a level from 1 to 6 the heading tags carry the one digit of the
    level. *)
Theorem createHeading_in_range (text : jsstring) (level : Z) :
  (1 <= level <= 6)%Z ->
  createHeading text level =
    ret (lit "<h" ++ [Z.to_N (48 + level)] ++ lit ">" ++ escape text ++
         lit "</h" ++ [Z.to_N (48 + level)] ++ lit ">").
Proof.
  intros Hlevel. unfold createHeading.
  rewrite sanitizeHTML_string, replace_all_escape.
  rewrite (numberToString_digit level Hlevel). reflexivity.
Qed.

Lemma createHeading_in_range_witness :
  createHeading (lit "a<b") 3 = ret (lit "<h3>a&lt;b</h3>").
Proof.
  apply (createHeading_in_range (lit "a<b") 3). lia.
Defined.

(** ** createUnorderedList: which arguments it takes *)

Lemma strings_of_values (elements : list value) :
  forallb is_string elements = true ->
  exists items, elements = map VString items.
Proof.
  induction elements as [| v rest IH]; intros H.
  - exists []. reflexivity.
  - cbn [forallb] in H. apply andb_true_iff in H. destruct H as [Hv Hrest].
    destruct (IH Hrest) as [items ->].
    destruct v; try discriminate Hv.
    exists (s :: items). reflexivity.
Qed.

Lemma list_item_string (s : jsstring) :
  list_item (VString s) = inr (lit "<li>" ++ replace_all s ++ lit "</li>").
Proof. reflexivity. Qed.

Lemma mapM_list_item_returns (elements : list value) (mapped : list jsstring) :
  mapM list_item elements = ret mapped -> forallb is_string elements = true.
Proof.
  revert mapped. induction elements as [| v rest IH]; intros mapped H;
    [reflexivity |].
  cbn [mapM] in H. cbn [forallb].
  destruct v;
    try (unfold list_item, sanitizeHTML, string_method, throw, ret in H;
         cbn [bind] in H; discriminate H).
  cbn [is_string andb].
  rewrite list_item_string in H.
  destruct (mapM list_item rest) as [e | ms] eqn:Hrest;
    [discriminate H |].
  apply (IH ms). reflexivity.
Qed.

(** X7: among plain data (primitives, arrays and plain objects of such,
    without methods of their own), the list builder returns a list exactly
    on an array all of whose elements are strings; on every other plain
    datum, an array with an element of another type included, what it throws
    is a [TypeError] of the runtime. *)
Theorem createUnorderedList_outcome (items : value) :
  (array_of_strings items = true ->
   exists r, createUnorderedList items = ret r) /\
  (array_of_strings items = false ->
   exists cause, createUnorderedList items = throw (TypeError cause)).
Proof.
  split; intros H.
  - destruct items; try discriminate H. cbn [array_of_strings] in H.
    destruct (strings_of_values _ H) as [strings ->].
    unfold createUnorderedList. cbn [array_map].
    rewrite mapM_list_item_strings. cbn [bind ret]. eexists. reflexivity.
  - unfold createUnorderedList.
    destruct items; cbn [array_map bind throw]; try (eexists; reflexivity).
    cbn [array_of_strings] in H.
    destruct (mapM list_item elements) as [e | mapped] eqn:Hmap.
    + destruct (mapM_list_item_throws _ _ Hmap) as [cause ->].
      exists cause. reflexivity.
    + rewrite (mapM_list_item_returns _ _ Hmap) in H. discriminate H.
Qed.

Lemma createUnorderedList_outcome_witness :
  (exists r, createUnorderedList (VArray [VString (lit "a"); VString (lit "b")]) = ret r) /\
  (exists cause,
     createUnorderedList (VArray [VString (lit "a"); VNumber 5]) =
       throw (TypeError cause)) /\
  (exists cause, createUnorderedList VUndefined = throw (TypeError cause)).
Proof.
  split; [| split].
  - apply (proj1 (createUnorderedList_outcome _)). reflexivity.
  - apply (proj2 (createUnorderedList_outcome _)). reflexivity.
  - apply (proj2 (createUnorderedList_outcome _)). reflexivity.
Defined.

Lemma occurrences_list_items (c : char16) (per_item : nat) (items : list jsstring) :
  occurrences c [newline] = 0%nat ->
  (forall item, occurrences c (lit "<li>" ++ escape item ++ lit "</li>") = per_item) ->
  occurrences c
    (join [newline]
       (map (fun item => lit "<li>" ++ escape item ++ lit "</li>") items)) =
  (per_item * List.length items)%nat.
Proof.
  intros Hnl Hitem. induction items as [| a rest IH]; [cbn; lia |].
  destruct rest as [| b rest].
  - cbn [map join List.length]. rewrite Hitem. lia.
  - cbn [map] in *.
    rewrite join_cons.
    rewrite (occurrences_app c (lit "<li>" ++ escape a ++ lit "</li>")).
    rewrite (occurrences_app c [newline]).
    rewrite Hitem, Hnl. length_lia.
Qed.

(** X8: on an array of strings, whatever the items hold, the list that is
    returned has two less-than and two greater-than signs for each item and
    two of each for the list tags, and no double quote: an item adds no tag
    of its own. *)
Theorem createUnorderedList_markup (items : list jsstring) :
  exists r, createUnorderedList (VArray (map VString items)) = ret r /\
            occurrences 60 r = (2 * List.length items + 2)%nat /\
            occurrences 62 r = (2 * List.length items + 2)%nat /\
            occurrences 34 r = 0%nat.
Proof.
  eexists. split.
  - unfold createUnorderedList. cbn [array_map].
    rewrite mapM_list_item_strings. reflexivity.
  - cbn [bind ret]. repeat split; rewrite !occurrences_app.
    + rewrite (occurrences_list_items 60 2);
        [cbn; lia | reflexivity | intros; autorewrite with markup; reflexivity].
    + rewrite (occurrences_list_items 62 2);
        [cbn; lia | reflexivity | intros; autorewrite with markup; reflexivity].
    + rewrite (occurrences_list_items 34 0);
        [cbn; lia | reflexivity | intros; autorewrite with markup; reflexivity].
Qed.

(** ** createLink: what an accepted reference cannot add *)

(** X9: when the reference is accepted, whatever it and the text hold, the
    anchor that is returned has the two double quotes that delimit the
    attribute and no other, and the less-than and greater-than signs of its
    two tags only. *)
Theorem createLink_markup (text href : jsstring) :
  ~ forbidden_href href ->
  exists r, createLink text href = ret r /\
            occurrences 34 r = 2%nat /\
            occurrences 60 r = 2%nat /\
            occurrences 62 r = 2%nat.
Proof.
  intros Hok. exists (anchor text href). split.
  - apply createLink_allowed, Hok.
  - unfold anchor. repeat split; autorewrite with markup; reflexivity.
Qed.

Lemma createLink_markup_witness :
  exists r,
    createLink (lit "<b>x</b>") [dquote; 62; 60] = ret r /\
    occurrences 34 r = 2%nat /\
    occurrences 60 r = 2%nat /\
    occurrences 62 r = 2%nat.
Proof.
  apply (createLink_markup (lit "<b>x</b>") [dquote; 62; 60]).
  intros [[rest H] | [rest H]]; discriminate H.
Defined.

(** X10: only a reference whose first character is the lower-case letter j
    or d can be refused: a reference that starts with any other character
    is accepted whatever follows, one of the two prefixes after a leading
    space included. *)
Theorem createLink_first_character (text rest : jsstring) (c : char16) :
  c <> 106 -> c <> 100 ->
  createLink text (c :: rest) =
    ret (lit "<a href=" ++ [dquote] ++ escape (c :: rest) ++ [dquote] ++
         lit ">" ++ escape text ++ lit "</a>").
Proof.
  intros Hj Hd. apply createLink_allowed.
  intros [[r H] | [r H]]; cbn in H; injection H as H _; congruence.
Qed.

Lemma createLink_first_character_witness :
  createLink (lit "x") (lit " javascript:alert(1)") =
    ret (lit "<a href=" ++ [dquote] ++ lit " javascript:alert(1)" ++ [dquote] ++
         lit ">x</a>").
Proof.
  apply (createLink_first_character (lit "x") (lit "javascript:alert(1)") 32);
    discriminate.
Defined.

(** ** generateWebsite: every outcome *)

Lemma trimStart_blank (s : jsstring) : blank s = true -> trimStart s = [].
Proof.
  induction s as [| c rest IH]; [reflexivity |].
  unfold blank. cbn [forallb trimStart]. intros H.
  apply andb_true_iff in H. destruct H as [-> Hrest]. apply IH, Hrest.
Qed.

Lemma trimStart_not_blank (s : jsstring) :
  blank s = false -> trimStart s <> [].
Proof.
  induction s as [| c rest IH]; [discriminate |].
  unfold blank. cbn [forallb trimStart].
  destruct (is_white_space c); [apply IH | discriminate].
Qed.

Lemma trimStart_keeps_content (s : jsstring) :
  blank s = false -> blank (trimStart s) = false.
Proof.
  induction s as [| c rest IH]; [discriminate |].
  unfold blank in *. cbn [trimStart].
  destruct (is_white_space c) eqn:Hc.
  - cbn [forallb]. rewrite Hc. apply IH.
  - cbn [forallb]. rewrite Hc. reflexivity.
Qed.

Lemma blank_rev (s : jsstring) : blank (rev s) = blank s.
Proof.
  unfold blank. induction s as [| c rest IH]; [reflexivity |].
  cbn [rev forallb]. rewrite forallb_app, IH. cbn [forallb].
  rewrite andb_true_r. apply andb_comm.
Qed.

(** Trimming leaves nothing exactly of a string made of white space. *)
Lemma trim_blank (s : jsstring) : trim s = [] <-> blank s = true.
Proof.
  split.
  - intros H. destruct (blank s) eqn:Hs; [reflexivity | exfalso].
    unfold trim, trimEnd in H.
    assert (trimStart (rev (trimStart s)) = []) as H'.
    { destruct (trimStart (rev (trimStart s))) as [| x l]; [reflexivity |].
      cbn [rev] in H. destruct (rev l); discriminate H. }
    revert H'. apply trimStart_not_blank.
    rewrite blank_rev. apply trimStart_keeps_content, Hs.
  - intros H. unfold trim, trimEnd. rewrite (trimStart_blank s H). reflexivity.
Qed.

Lemma generateWebsite_refused_title (options : value) :
  refused_field (property options "title") ->
  generateWebsite options = throw (Error title_required).
Proof.
  intros H. unfold generateWebsite.
  rewrite (proj1 (title_rejected_spec options) H). reflexivity.
Qed.

Lemma generateWebsite_refused_body (options : value) :
  accepted_field (property options "title") ->
  refused_field (property options "bodyContent") ->
  generateWebsite options = throw (Error body_required).
Proof.
  intros Htitle Hbody. unfold generateWebsite.
  rewrite (proj2 (title_rejected_spec options) Htitle). cbn [bind ret].
  rewrite (proj1 (body_rejected_spec options (accepted_truthy _ _ Htitle)) Hbody).
  reflexivity.
Qed.

Lemma generateWebsite_accepted (options : value) (t b : jsstring) :
  property options "title" = VString t -> trim t <> [] ->
  property options "bodyContent" = VString b -> trim b <> [] ->
  generateWebsite options =
    (sanitizedStyles <- sanitized_optional options "styles" ;;
     sanitizedScripts <- sanitized_optional options "scripts" ;;
     ret (page (escape t) (escape b) sanitizedStyles sanitizedScripts)).
Proof.
  intros Ht Htrim Hb Hbtrim.
  assert (accepted_field (property options "title")) as Htitle
    by (rewrite Ht; exact Htrim).
  assert (accepted_field (property options "bodyContent")) as Hbody
    by (rewrite Hb; exact Hbtrim).
  pose proof (accepted_truthy _ _ Htitle) as Htruthy.
  unfold generateWebsite.
  rewrite (proj2 (title_rejected_spec options) Htitle). cbn [bind ret].
  rewrite (proj2 (body_rejected_spec options Htruthy) Hbody). cbn [bind ret].
  rewrite !get_truthy by assumption. rewrite Ht, Hb. cbn [bind ret].
  rewrite !sanitizeHTML_string, !replace_all_escape. cbn [bind ret].
  reflexivity.
Qed.

Lemma sanitized_optional_ok (options : value) (name : string) :
  truthy options = true ->
  optional_ok (property options name) = true ->
  sanitized_optional options name =
    ret (match optional_content (property options name) with
         | Some s => escape s
         | None => []
         end).
Proof.
  intros Htruthy Hok. unfold sanitized_optional.
  rewrite !get_truthy by assumption. cbn [bind ret].
  destruct (property options name) as [| | [|] | n | [| c s] | l | l];
    cbn in Hok; try discriminate Hok; try reflexivity.
  - destruct n; try discriminate Hok. reflexivity.
  - cbn [truthy is_empty negb optional_content].
    rewrite sanitizeHTML_string, replace_all_escape. reflexivity.
Qed.

Lemma sanitized_optional_bad (options : value) (name : string) :
  truthy options = true ->
  optional_ok (property options name) = false ->
  sanitized_optional options name =
    throw (TypeError (NotAFunction "input.replace")).
Proof.
  intros Htruthy Hbad. unfold sanitized_optional.
  rewrite !get_truthy by assumption. cbn [bind ret].
  destruct (property options name) as [| | [|] | n | [| c s] | l | l];
    cbn in Hbad; try discriminate Hbad; try reflexivity.
  destruct n; try discriminate Hbad; reflexivity.
Qed.

Lemma optional_block_content (tag : string) (content : option jsstring) :
  lit "  " ++ optional_block tag (match content with
                                  | Some s => escape s
                                  | None => []
                                  end) =
  optional_line tag content.
Proof.
  destruct content as [[| c rest] |]; try reflexivity.
  unfold optional_block, optional_line. cbn [truthy].
  rewrite escape_empty. reflexivity.
Qed.

Lemma page_document (o : WebsiteOptions) :
  page (escape (title o)) (escape (bodyContent o))
       (match styles o with Some s => escape s | None => [] end)
       (match scripts o with Some s => escape s | None => [] end) =
  document o.
Proof.
  unfold page, document.
  rewrite <- (optional_block_content "style" (styles o)).
  rewrite <- (optional_block_content "script" (scripts o)).
  cbn [join]. rewrite <- !app_assoc. reflexivity.
Qed.

(** The outcome of [generateWebsite] on any value, in the order in which
    the code decides it. *)
Lemma generateWebsite_cases (options : value) :
  generateWebsite options =
  match property options "title" with
  | VString t =>
      if blank t then throw (Error title_required) else
      match property options "bodyContent" with
      | VString b =>
          if blank b then throw (Error body_required) else
          if optional_ok (property options "styles") &&
             optional_ok (property options "scripts")
          then ret (document (options_read t b options))
          else throw (TypeError (NotAFunction "input.replace"))
      | _ => throw (Error body_required)
      end
  | _ => throw (Error title_required)
  end.
Proof.
  destruct (property options "title") as [| | ? | ? | t | ? | ?] eqn:Ht;
    try (apply generateWebsite_refused_title; rewrite Ht; exact I).
  destruct (blank t) eqn:Hblank.
  { apply generateWebsite_refused_title. rewrite Ht. apply trim_blank, Hblank. }
  assert (trim t <> []) as Htrim
    by (intros H; apply trim_blank in H; congruence).
  assert (accepted_field (property options "title")) as Htitle
    by (rewrite Ht; exact Htrim).
  pose proof (accepted_truthy _ _ Htitle) as Htruthy.
  destruct (property options "bodyContent") as [| | ? | ? | b | ? | ?] eqn:Hb;
    try (apply generateWebsite_refused_body; [exact Htitle | rewrite Hb; exact I]).
  destruct (blank b) eqn:Hbblank.
  { apply generateWebsite_refused_body; [exact Htitle |].
    rewrite Hb. apply trim_blank, Hbblank. }
  assert (trim b <> []) as Hbtrim
    by (intros H; apply trim_blank in H; congruence).
  rewrite (generateWebsite_accepted options t b Ht Htrim Hb Hbtrim).
  destruct (optional_ok (property options "styles")) eqn:Hstyles.
  - rewrite (sanitized_optional_ok _ _ Htruthy Hstyles). cbn [bind ret].
    destruct (optional_ok (property options "scripts")) eqn:Hscripts.
    + rewrite (sanitized_optional_ok _ _ Htruthy Hscripts). cbn [bind ret andb].
      f_equal. apply (page_document (options_read t b options)).
    + rewrite (sanitized_optional_bad _ _ Htruthy Hscripts). reflexivity.
  - rewrite (sanitized_optional_bad _ _ Htruthy Hstyles). reflexivity.
Qed.

Lemma required_messages_differ : title_required <> body_required.
Proof. discriminate. Qed.

(** X11: when the title and the body content are strings, the title error
    is thrown exactly when the title is made of white space only (or is
    empty), and the body error exactly when the title is not and the body
    content is. *)
Theorem generateWebsite_blank_fields (options : value) (t b : jsstring) :
  property options "title" = VString t ->
  property options "bodyContent" = VString b ->
  (generateWebsite options = throw (Error title_required) <-> blank t = true) /\
  (generateWebsite options = throw (Error body_required) <->
   blank t = false /\ blank b = true).
Proof.
  intros Ht Hb. rewrite generateWebsite_cases, Ht, Hb.
  pose proof required_messages_differ as Hdiff.
  unfold throw, ret.
  destruct (blank t), (blank b),
    (optional_ok (property options "styles") &&
     optional_ok (property options "scripts"));
    (split; split; intros H);
    try reflexivity; try discriminate H;
    try (destruct H; discriminate);
    try (split; reflexivity);
    try (exfalso; injection H as H; congruence).
Qed.

Lemma generateWebsite_blank_fields_witness :
  generateWebsite
    (VObject [(lit "title", VString [32; 9; 10; 160]);
              (lit "bodyContent", VString (lit "<p>Content</p>"))]) =
    throw (Error title_required) /\
  generateWebsite
    (VObject [(lit "title", VString (lit " T "));
              (lit "bodyContent", VString [32; 13; 10])]) =
    throw (Error body_required).
Proof.
  split.
  - apply (proj1 (generateWebsite_blank_fields
                    (VObject [(lit "title", VString [32; 9; 10; 160]);
                              (lit "bodyContent", VString (lit "<p>Content</p>"))])
                    [32; 9; 10; 160] (lit "<p>Content</p>") eq_refl eq_refl)).
    reflexivity.
  - apply (proj2 (generateWebsite_blank_fields
                    (VObject [(lit "title", VString (lit " T "));
                              (lit "bodyContent", VString [32; 13; 10])])
                    (lit " T ") [32; 13; 10] eq_refl eq_refl)).
    split; reflexivity.
Defined.

(** X12: on any object whose title and body content are strings that are
    not blank, and whose styles and scripts are each a string or a falsy
    value of any type (absent, [undefined], [null], [false], zero, the empty
    string), the document of the template is returned, with a falsy
    optional field taken as absent; further properties of the object and
    the order of its properties play no part. *)
Theorem generateWebsite_untyped (options : value) (t b : jsstring) :
  property options "title" = VString t -> blank t = false ->
  property options "bodyContent" = VString b -> blank b = false ->
  optional_ok (property options "styles") = true ->
  optional_ok (property options "scripts") = true ->
  generateWebsite options =
    ret (document {| title := t;
                     bodyContent := b;
                     styles := optional_content (property options "styles");
                     scripts := optional_content (property options "scripts") |}).
Proof.
  intros Ht Hblank Hb Hbblank Hstyles Hscripts.
  rewrite generateWebsite_cases, Ht, Hb, Hblank, Hbblank, Hstyles, Hscripts.
  reflexivity.
Qed.

Lemma generateWebsite_untyped_witness :
  generateWebsite
    (VObject [(lit "scripts", VNull);
              (lit "bodyContent", VString (lit "Hi"));
              (lit "lang", VString (lit "fr"));
              (lit "styles", VNumber 0);
              (lit "title", VString (lit "T"))]) =
  ret (document {| title := lit "T";
                   bodyContent := lit "Hi";
                   styles := None;
                   scripts := None |}).
Proof.
  exact (generateWebsite_untyped
           (VObject [(lit "scripts", VNull);
                     (lit "bodyContent", VString (lit "Hi"));
                     (lit "lang", VString (lit "fr"));
                     (lit "styles", VNumber 0);
                     (lit "title", VString (lit "T"))])
           (lit "T") (lit "Hi")
           eq_refl eq_refl eq_refl eq_refl eq_refl eq_refl).
Defined.

(** X13: with a title and a body content that are accepted, a styles or
    scripts field that holds a truthy plain datum that is not a string (a
    number other than zero, [true], an array, a plain object without methods
    of its own) makes the function throw the runtime's [TypeError] for the
    call of [input.replace], and no document is returned. *)
Theorem generateWebsite_optional_not_string (options : value) (t b : jsstring) :
  property options "title" = VString t -> blank t = false ->
  property options "bodyContent" = VString b -> blank b = false ->
  optional_ok (property options "styles") = false \/
  optional_ok (property options "scripts") = false ->
  generateWebsite options = throw (TypeError (NotAFunction "input.replace")) /\
  message_of (TypeError (NotAFunction "input.replace")) =
    lit "input.replace is not a function".
Proof.
  intros Ht Hblank Hb Hbblank Hbad. split; [| reflexivity].
  rewrite generateWebsite_cases, Ht, Hb, Hblank, Hbblank.
  destruct Hbad as [-> | ->]; [reflexivity |].
  rewrite andb_false_r. reflexivity.
Qed.

Lemma generateWebsite_optional_not_string_witness :
  generateWebsite
    (VObject [(lit "title", VString (lit "T"));
              (lit "bodyContent", VString (lit "Hi"));
              (lit "styles", VArray [VString (lit "a{}")])]) =
  throw (TypeError (NotAFunction "input.replace")).
Proof.
  apply (generateWebsite_optional_not_string
           (VObject [(lit "title", VString (lit "T"));
                     (lit "bodyContent", VString (lit "Hi"));
                     (lit "styles", VArray [VString (lit "a{}")])])
           (lit "T") (lit "Hi") eq_refl eq_refl eq_refl eq_refl).
  left. reflexivity.
Defined.

(** X14: on options made of plain data (no wrapper object, no object with
    methods of its own), the function returns a document exactly when the
    title and the body content are strings that are not blank and the styles
    and the scripts are each a string or falsy. *)
Theorem generateWebsite_returns_iff (options : value) :
  (exists d, generateWebsite options = ret d) <->
  (exists t, property options "title" = VString t /\ blank t = false) /\
  (exists b, property options "bodyContent" = VString b /\ blank b = false) /\
  optional_ok (property options "styles") = true /\
  optional_ok (property options "scripts") = true.
Proof.
  rewrite generateWebsite_cases. unfold throw, ret. split.
  - intros [d H].
    destruct (property options "title") as [| | ? | ? | t | ? | ?];
      try discriminate H.
    destruct (blank t) eqn:Hblank; [discriminate H |].
    destruct (property options "bodyContent") as [| | ? | ? | b | ? | ?];
      try discriminate H.
    destruct (blank b) eqn:Hbblank; [discriminate H |].
    destruct (optional_ok (property options "styles")); [| discriminate H].
    destruct (optional_ok (property options "scripts")); [| discriminate H].
    repeat split; eauto.
  - intros [[t [-> ->]] [[b [-> ->]] [-> ->]]]. eexists. reflexivity.
Qed.

Lemma generateWebsite_returns_iff_witness :
  (exists d,
     generateWebsite
       (VObject [(lit "title", VString (lit "T"));
                 (lit "bodyContent", VString (lit "Hi"));
                 (lit "scripts", VString (lit "let a = 1 < 2;"))]) = ret d) /\
  ~ (exists d,
       generateWebsite
         (VObject [(lit "title", VString (lit "T"));
                   (lit "bodyContent", VString (lit "Hi"));
                   (lit "scripts", VBool true)]) = ret d).
Proof.
  split.
  - apply (proj2 (generateWebsite_returns_iff _)).
    split; [exists (lit "T"); split; reflexivity |].
    split; [exists (lit "Hi"); split; reflexivity |].
    split; reflexivity.
  - intros H. apply (proj1 (generateWebsite_returns_iff _)) in H.
    destruct H as [_ [_ [_ H]]]. discriminate H.
Defined.

Lemma document_markup (o : WebsiteOptions) :
  occurrences 60 (document o) =
    (11 + block_tags (styles o) + block_tags (scripts o))%nat /\
  occurrences 62 (document o) =
    (11 + block_tags (styles o) + block_tags (scripts o))%nat /\
  occurrences 34 (document o) = 8%nat.
Proof.
  unfold document. cbn [join].
  destruct (styles o) as [[| x r] |], (scripts o) as [[| x' r'] |];
    cbn [optional_line block_tags];
    repeat split; autorewrite with markup; reflexivity.
Qed.

(** X15: whatever the caller supplies, a document that is returned has the
    eleven tags of the template and two more for each optional block that is
    present and not empty, counted by their less-than and greater-than
    signs, and the eight double quotes of the template: no markup of the
    title, the body content, the styles or the scripts survives as
    markup. *)
Theorem generateWebsite_markup (options : value) (d : jsstring) :
  generateWebsite options = ret d ->
  occurrences 60 d =
    (11 + block_tags (optional_content (property options "styles")) +
     block_tags (optional_content (property options "scripts")))%nat /\
  occurrences 62 d =
    (11 + block_tags (optional_content (property options "styles")) +
     block_tags (optional_content (property options "scripts")))%nat /\
  occurrences 34 d = 8%nat.
Proof.
  rewrite generateWebsite_cases. unfold throw, ret. intros H.
  destruct (property options "title") as [| | ? | ? | t | ? | ?];
    try discriminate H.
  destruct (blank t); [discriminate H |].
  destruct (property options "bodyContent") as [| | ? | ? | b | ? | ?];
    try discriminate H.
  destruct (blank b); [discriminate H |].
  destruct (optional_ok (property options "styles") &&
            optional_ok (property options "scripts")); [| discriminate H].
  injection H as <-. apply (document_markup (options_read t b options)).
Qed.

Lemma generateWebsite_markup_witness :
  exists d,
    generateWebsite
      (options_object {| title := lit "<i>T</i>";
                         bodyContent := lit "<div>Hello</div>";
                         styles := Some (lit "a > b {}");
                         scripts := None |}) = ret d /\
    occurrences 60 d = 13%nat /\
    occurrences 62 d = 13%nat /\
    occurrences 34 d = 8%nat.
Proof.
  eexists. split; [reflexivity |].
  apply (generateWebsite_markup
           (options_object {| title := lit "<i>T</i>";
                              bodyContent := lit "<div>Hello</div>";
                              styles := Some (lit "a > b {}");
                              scripts := None |})).
  reflexivity.
Defined.
